(** * ForzaOpenTuneFormatter: unit conversions and the two tune renderers

    A shallow embedding of [src/lib/conversions.ts] (the conversion engine
    and the unit pairing tables), of the markdown (reddit) generator and of
    the chat (discord) generator, together with the properties that the
    specification states about them.

    JavaScript numbers are IEEE 754 binary64 values.  They are modelled by
    [spec_float] of the Standard Library with precision 53 and maximal
    exponent 1024: multiplication and division are the correctly rounded
    operations [SFmul] and [SFdiv], so every rounding, overflow and NaN of
    the source is present in the model.

    JavaScript strings are modelled by [string]; one [ascii] stands for one
    UTF-16 code unit below 256 (all the literals of the source, including
    the degree sign, are in that range). *)

From Stdlib Require Import ZArith QArith Qabs Lia Lqa List String Ascii Bool Arith.
From Stdlib Require Import Floats.SpecFloat DecimalString.
Import ListNotations.

Close Scope Q_scope.
Open Scope list_scope.
Open Scope string_scope.

(** ** ECMAScript built-ins used by the source *)

Module JS.

Definition number : Type := spec_float.

Definition prec : Z := 53.
Definition emax : Z := 1024.

Definition NaN : number := S754_nan.
Definition Infinity : number := S754_infinity false.
Definition zero : number := S754_zero false.

(** [x * y] and [x / y] on numbers. *)
Definition mul (x y : number) : number := SFmul prec emax x y.
Definition div (x y : number) : number := SFdiv prec emax x y.

Definition isNaN (x : number) : bool :=
  match x with S754_nan => true | _ => false end.

(** ToBoolean on a number: [NaN], [+0] and [-0] are falsy. *)
Definition truthy (x : number) : bool :=
  match x with
  | S754_nan | S754_zero _ => false
  | _ => true
  end.

(** ToBoolean on a string: only the empty string is falsy. *)
Definition truthyStr (s : string) : bool :=
  match s with EmptyString => false | _ => true end.

(** The Number value of the decimal [m * 10^e10] ([m >= 0]), rounded to
    nearest, ties to even, as a numeric literal or a parsed string is. *)
Definition ofDecimal (neg : bool) (m : Z) (e10 : Z) : number :=
  match m with
  | Z0 => S754_zero neg
  | Zpos p =>
      match e10 with
      | Zneg k =>
          let '(q, e, l) :=
            SFdiv_core_binary prec emax (Zpos p) 0 (Z.pow_pos 10 k) 0 in
          binary_round_aux prec emax neg q e l
      | _ => binary_normalize prec emax
               (if neg then Z.opp (Zpos p * 10 ^ e10) else Zpos p * 10 ^ e10)
               0 neg
      end
  | Zneg _ => S754_nan
  end.

(** The Number value of an integer. *)
Definition ofZ (z : Z) : number := binary_normalize prec emax z 0 false.

(** *** parseFloat *)

Definition isWhiteSpace (c : ascii) : bool :=
  let n := nat_of_ascii c in
  (((9 <=? n) && (n <=? 13)) || (n =? 32) || (n =? 160))%nat.

Definition isDigit (c : ascii) : bool :=
  let n := nat_of_ascii c in ((48 <=? n) && (n <=? 57))%nat.

Definition digitVal (c : ascii) : Z := Z.of_nat (nat_of_ascii c) - 48.

Fixpoint trimStart (s : string) : string :=
  match s with
  | String c rest => if isWhiteSpace c then trimStart rest else s
  | EmptyString => EmptyString
  end.

(** The longest prefix of decimal digits, and what follows it. *)
Fixpoint spanDigits (s : string) : list ascii * string :=
  match s with
  | String c rest =>
      if isDigit c
      then let '(ds, r) := spanDigits rest in (c :: ds, r)
      else ([], s)
  | EmptyString => ([], EmptyString)
  end.

Definition digitsVal (ds : list ascii) : Z :=
  fold_left (fun acc c => 10 * acc + digitVal c)%Z ds 0%Z.

(** [s.startsWith(p)] *)
Fixpoint startsWith (p s : string) : bool :=
  match p with
  | EmptyString => true
  | String a p' =>
      match s with
      | EmptyString => false
      | String b s' => Ascii.eqb a b && startsWith p' s'
      end
  end.

(** ExponentPart: [e] or [E], an optional sign and at least one digit;
    0 when the text does not start with a complete exponent part. *)
Definition exponentPart (s : string) : Z :=
  match s with
  | String c rest =>
      if (Ascii.eqb c "e" || Ascii.eqb c "E")%bool then
        match rest with
        | String "-" r =>
            match fst (spanDigits r) with
            | [] => 0
            | ds => - digitsVal ds
            end
        | String "+" r => digitsVal (fst (spanDigits r))
        | _ => digitsVal (fst (spanDigits rest))
        end%Z
      else 0%Z
  | EmptyString => 0%Z
  end.

(** StrUnsignedDecimalLiteral: the longest prefix that is [Infinity],
    [digits . digits? exponent?], [. digits exponent?] or
    [digits exponent?]; [NaN] when no prefix is one. *)
Definition parseUnsigned (neg : bool) (s : string) : number :=
  if startsWith "Infinity" s then S754_infinity neg
  else
    let '(ip, r1) := spanDigits s in
    let '(fp, r2) :=
      match r1 with
      | String "." r => spanDigits r
      | _ => ([], r1)
      end in
    match ip, fp with
    | [], [] => S754_nan
    | _, _ =>
        ofDecimal neg (digitsVal (ip ++ fp)%list)
                  (exponentPart r2 - Z.of_nat (List.length fp))
    end.

Definition parseFloat (s : string) : number :=
  match trimStart s with
  | String "-" r => parseUnsigned true r
  | String "+" r => parseUnsigned false r
  | t => parseUnsigned false t
  end.

(** *** Number.prototype.toFixed and Number::toString *)

Definition digitsOfZ (n : Z) : string :=
  NilZero.string_of_uint (N.to_uint (Z.to_N n)).

(** Template-literal conversion of a non-negative integer index. *)
Definition natToString (n : nat) : string := digitsOfZ (Z.of_nat n).

Fixpoint zeros (n : nat) : string :=
  match n with O => "" | S k => String "0" (zeros k) end.

(** Steps 8 to 10 of toFixed: [digits] is the decimal text of [n], [f] the
    number of fraction digits. *)
Definition insertPoint (digits : string) (f : nat) : string :=
  match f with
  | O => digits
  | _ =>
      let k := String.length digits in
      let m := if (k <=? f)%nat then zeros (f + 1 - k) ++ digits else digits in
      let k := String.length m in
      substring 0 (k - f) m ++ "." ++ substring (k - f) f m
  end.

(** The integer [n] for which [n / 10^f - m * 2^e] is closest to zero, the
    larger one when there are two. *)
Definition roundScaled (m : positive) (e : Z) (f : nat) : Z :=
  match e with
  | Zneg k =>
      (2 * Zpos m * 10 ^ Z.of_nat f + Z.pow_pos 2 k) / (2 * Z.pow_pos 2 k)
  | _ => Zpos m * 2 ^ e * 10 ^ Z.of_nat f
  end%Z.

(** [10^21 <= m * 2^e] *)
Definition atLeast1e21 (m : positive) (e : Z) : bool :=
  match e with
  | Zneg k => (10 ^ 21 * Z.pow_pos 2 k <=? Zpos m)%Z
  | _ => (10 ^ 21 <=? Zpos m * 2 ^ e)%Z
  end.

Definition sameNumber (x y : number) : bool := SFeqb x y.

(** Number::toString for an integer value [X >= 10^21] of the number [x]:
    the least number [k] of significant digits [s] with
    [s * 10^(n-k)] rounding to [x], printed in exponent notation. *)
Definition candidate (x : number) (X s scale : Z) (n : Z)
  (best : option (Z * Z)) : option (Z * Z) :=
  if sameNumber (ofZ (s * scale)) x then
    match best with
    | Some (s', n') =>
        let d := Z.abs (s * scale - X) in
        let d' := Z.abs (s' * 10 ^ (n' - n) * scale - X) in
        if (d <? d')%Z then Some (s, n)
        else if (d =? d')%Z && Z.even s then Some (s, n) else best
    | None => Some (s, n)
    end
  else best.

Fixpoint shortestDigits (fuel : nat) (k : Z) (x : number) (X d : Z)
  : Z * Z :=
  match fuel with
  | O => (X, d)
  | S fuel' =>
      let scale := (10 ^ (d - k))%Z in
      let lo := (X / scale)%Z in
      let c1 := candidate x X lo scale d None in
      let c2 := if (lo + 1 <? 10 ^ k)%Z
                then candidate x X (lo + 1) scale d c1 else c1 in
      let c3 := if (k =? 1)%Z
                then match c2 with
                     | None => if sameNumber (ofZ (10 ^ d)) x
                               then Some (1, d + 1)%Z else None
                     | _ => c2
                     end
                else c2 in
      match c3 with
      | Some r => r
      | None => shortestDigits fuel' (k + 1)%Z x X d
      end
  end.

Definition toStringLarge (x : number) (X : Z) : string :=
  let d := Z.of_nat (String.length (digitsOfZ X)) in
  let '(s, n) := shortestDigits 17 1 x X d in
  let ds := digitsOfZ s in
  match ds with
  | String c EmptyString => String c ("e+" ++ digitsOfZ (n - 1))
  | String c rest => String c ("." ++ rest ++ "e+" ++ digitsOfZ (n - 1))
  | EmptyString => EmptyString
  end.

(** [x.toFixed(f)] for [0 <= f <= 100]. *)
Definition toFixedStr (x : number) (f : nat) : string :=
  match x with
  | S754_nan => "NaN"
  | S754_infinity s => if s then "-Infinity" else "Infinity"
  | S754_zero _ => insertPoint "0" f
  | S754_finite s m e =>
      (if s then "-" else "") ++
      (if atLeast1e21 m e
       then toStringLarge (S754_finite false m e) (Zpos m * 2 ^ e)
       else insertPoint (digitsOfZ (roundScaled m e f)) f)
  end.

Inductive exn : Type := TypeError | RangeError.

(** The outcome of an expression that may throw. *)
Inductive completion (A : Type) : Type :=
| Normal (a : A)
| Throw (e : exn).
Arguments Normal {A} a.
Arguments Throw {A} e.

(** [x.toFixed(f)]: a RangeError when [f] is above 100. *)
Definition toFixed (x : number) (f : nat) : completion string :=
  if (f <=? 100)%nat then Normal (toFixedStr x f) else Throw RangeError.

(** *** Strings and arrays *)

Fixpoint spaces (n : nat) : string :=
  match n with O => "" | S k => String " " (spaces k) end.

Definition padEnd (s : string) (width : nat) : string :=
  s ++ spaces (width - String.length s).

Definition padStart (s : string) (width : nat) : string :=
  spaces (width - String.length s) ++ s.

Fixpoint trimEnd (s : string) : string :=
  match s with
  | EmptyString => EmptyString
  | String c rest =>
      match trimEnd rest with
      | EmptyString => if isWhiteSpace c then EmptyString
                       else String c EmptyString
      | r => String c r
      end
  end.

Definition trim (s : string) : string := trimEnd (trimStart s).

(** [a.join(sep)] on an array of strings. *)
Definition join (sep : string) (a : list string) : string :=
  String.concat sep a.

(** [s.replace(/\*\*/g, '')]: every match of two stars, found from left
    to right, is removed. *)
Fixpoint removeDoubleStars (s : string) : string :=
  match s with
  | String "*" (String "*" rest) => removeDoubleStars rest
  | String c rest => String c (removeDoubleStars rest)
  | EmptyString => EmptyString
  end.

(** The line feed of an escaped newline in a string literal. *)
Definition nl : string := String (ascii_of_nat 10) EmptyString.

(** [a || b] on strings. *)
Definition orElse (a b : string) : string := if truthyStr a then a else b.

(** [a.map((x, index) => f(x, index))] *)
Fixpoint mapFrom {A B : Type} (f : A -> nat -> B) (index : nat) (a : list A)
  : list B :=
  match a with
  | [] => []
  | x :: rest => f x index :: mapFrom f (S index) rest
  end.

Definition mapi {A B : Type} (f : A -> nat -> B) (a : list A) : list B :=
  mapFrom f 0 a.

(** [a.length] as a condition. *)
Definition nonEmpty {A : Type} (a : list A) : bool :=
  match a with [] => false | _ => true end.

(** [falseyValues.includes(value)] for a string [value]. *)
Definition includes (a : list string) (value : string) : bool :=
  existsb (String.eqb value) a.

End JS.

(** ** lib/types

    The enum and interface declarations of [lib/types] are not among the
    sources.  The units are the ten keys of [convertToMap] and
    [switchUnitMap], whose type [Record<UnitOfMeasure, _>] makes them all
    the units there are; the records have the fields that the formatters
    and [getFMDefaultFormV2] read and write. *)

Module PressureUnit.
Inductive t : Type := bar | psi.
End PressureUnit.

Module SpringRateUnit.
Inductive t : Type := kgf | lbs.
End SpringRateUnit.

Module LengthUnit.
Inductive t : Type := cm | inch.
End LengthUnit.

Module ForceUnit.
Inductive t : Type := kgf | lbf.
End ForceUnit.

Module SpeedUnit.
Inductive t : Type := kph | mph.
End SpeedUnit.

Module WeightUnit.
Inductive t : Type := kg | lb.
End WeightUnit.

(** The union of the five unit enums. *)
Inductive UnitOfMeasure : Type :=
| Pressure (u : PressureUnit.t)
| SpringRate (u : SpringRateUnit.t)
| Length (u : LengthUnit.t)
| Force (u : ForceUnit.t)
| Speed (u : SpeedUnit.t).

Definition allUnits : list UnitOfMeasure :=
  [ Pressure PressureUnit.bar; Pressure PressureUnit.psi;
    SpringRate SpringRateUnit.kgf; SpringRate SpringRateUnit.lbs;
    Length LengthUnit.cm; Length LengthUnit.inch;
    Force ForceUnit.kgf; Force ForceUnit.lbf;
    Speed SpeedUnit.kph; Speed SpeedUnit.mph ].

(** The key of a unit in an object literal: two units are the same key
    exactly when they are the same member of the same enum. *)
Definition unitEqb (a b : UnitOfMeasure) : bool :=
  match a, b with
  | Pressure PressureUnit.bar, Pressure PressureUnit.bar
  | Pressure PressureUnit.psi, Pressure PressureUnit.psi
  | SpringRate SpringRateUnit.kgf, SpringRate SpringRateUnit.kgf
  | SpringRate SpringRateUnit.lbs, SpringRate SpringRateUnit.lbs
  | Length LengthUnit.cm, Length LengthUnit.cm
  | Length LengthUnit.inch, Length LengthUnit.inch
  | Force ForceUnit.kgf, Force ForceUnit.kgf
  | Force ForceUnit.lbf, Force ForceUnit.lbf
  | Speed SpeedUnit.kph, Speed SpeedUnit.kph
  | Speed SpeedUnit.mph, Speed SpeedUnit.mph => true
  | _, _ => false
  end.

(** The physical quantity a unit measures. *)
Inductive PhysicalQuantity : Type :=
| QPressure | QSpringRate | QLength | QForce | QSpeed.

Definition quantityOf (u : UnitOfMeasure) : PhysicalQuantity :=
  match u with
  | Pressure _ => QPressure
  | SpringRate _ => QSpringRate
  | Length _ => QLength
  | Force _ => QForce
  | Speed _ => QSpeed
  end.

(** A value of type [string | number]. *)
Inductive Value : Type :=
| Str (s : string)
| Num (x : JS.number).

(** [na] is optional in the source; it is only ever tested for truth, so an
    absent flag is [false]. *)
Record FrontAndRearSettings : Type := {
  front : string;
  rear : string;
  na : bool;
}.

Record FrontAndRearWithUnits : Type := {
  wu_front : string;
  wu_rear : string;
  wu_na : bool;
  units : UnitOfMeasure;
}.

Record GearTuneSettings : Type := {
  ratios : list string;
  gears_na : bool;
}.

Record BrakeTuneSettings : Type := {
  brake_na : bool;
  bias : string;
  pressure : string;
}.

Record AccelDecelSettings : Type := {
  accel : string;
  decel : string;
}.

Record DifferentialTuneSettings : Type := {
  diff_front : AccelDecelSettings;
  diff_rear : AccelDecelSettings;
  center : string;
  diff_na : bool;
}.

(** [DriveType] is a string enum; only its text and its truth are used. *)
Definition DriveType : Type := string.

Record ConversionSettings : Type := {
  aspiration : string;
  bodyKit : string;
  engine : string;
  drivetrain : DriveType;
}.

(** ** formatter/motorsport/FMSetup.ts *)

Record SteeringWheelTuneSettings : Type := {
  sw_na : bool;
  ffbScale : string;
  steeringLockRange : string;
}.

Record FMAlignmentTuneSettings : Type := {
  camber : FrontAndRearSettings;
  toe : FrontAndRearSettings;
  caster : string;
  steeringAngle : string;
  alignment_na : bool;
}.

Record TuneSettings : Type := {
  tires : FrontAndRearWithUnits;
  gears : GearTuneSettings;
  alignment : FMAlignmentTuneSettings;
  arb : FrontAndRearSettings;
  springs : FrontAndRearWithUnits;
  rideHeight : FrontAndRearWithUnits;
  bump : FrontAndRearSettings;
  rebound : FrontAndRearSettings;
  rollCenterHeightOffset : FrontAndRearWithUnits;
  antiGeometryPercent : FrontAndRearSettings;
  aero : FrontAndRearWithUnits;
  brake : BrakeTuneSettings;
  diff : DifferentialTuneSettings;
  steeringWheel : SteeringWheelTuneSettings;
}.

(** Of the upgrade groups only [conversions] is read by the functions
    embedded below. *)
Record PerformanceUpgrades : Type := {
  conversions : ConversionSettings;
}.

(** ** The helpers of lib/utils and lib/unitsOfMeasure

    Both modules are imported by the sources and are not among them.  The
    embedding takes their exports as parameters; what is proved below holds
    for every implementation of them, under the hypotheses the statements
    name. *)

Class Utils : Type := {
  ensureFloat : Value -> JS.number;
  formatFloat : Value -> nat -> string -> string;
  addSuffix : nat -> string;
}.

(** The last argument of [formatUnit] is optional: [None] when the call
    site leaves it out. *)
Class UnitsOfMeasure : Type := {
  formatUnit : Value -> UnitOfMeasure -> nat -> option bool -> list string;
  formatUnitHeaders : UnitOfMeasure -> list string;
}.

(** ** lib/conversions.ts *)

Module Conversions.

Import JS.

Record SpringMultipliers : Type := {
  newtonsKgf : number;
  newtonsLbs : number;
}.

Record Multipliers : Type := {
  m_springs : SpringMultipliers;
  m_force : number;
  m_pressure : number;
  m_length : number;
  weightNewtonsToMass : number;
  m_speed : number;
}.

Definition multipliers : Multipliers := {|
  m_springs := {|
    newtonsKgf := ofDecimal false 1019716212978 (-13);
    newtonsLbs := ofDecimal false 57101471743224 (-14);
  |};
  m_force := ofDecimal false 45359236844386 (-14);
  m_pressure := ofDecimal false 689475728 (-10);
  m_length := ofDecimal false 39370078740214 (-14);
  weightNewtonsToMass := ofDecimal false 980665 (-5);
  m_speed := ofDecimal false 621371 (-6);
|}.

Section WithUtils.

Context {U : Utils}.

Definition convertWeightToMass (value : Value) (from : WeightUnit.t) : number :=
  let v := ensureFloat value in
  let newtons :=
    match from with
    | WeightUnit.kg => div v (newtonsKgf (m_springs multipliers))
    | _ => div v (newtonsLbs (m_springs multipliers))
    end in
  div newtons (weightNewtonsToMass multipliers).

Definition convertPressure (value : Value) (from : PressureUnit.t) : number :=
  let v := ensureFloat value in
  match from with
  | PressureUnit.bar => div v (m_pressure multipliers)
  | _ => mul v (m_pressure multipliers)
  end.

Definition convertLength (value : Value) (from : LengthUnit.t) : number :=
  let v := ensureFloat value in
  match from with
  | LengthUnit.cm => mul v (m_length multipliers)
  | _ => div v (m_length multipliers)
  end.

Definition convertForce (value : Value) (from : ForceUnit.t) : number :=
  let v := ensureFloat value in
  match from with
  | ForceUnit.kgf => div v (m_force multipliers)
  | _ => mul v (m_force multipliers)
  end.

Definition convertSpeed (value : Value) (from : SpeedUnit.t) : number :=
  let v := ensureFloat value in
  match from with
  | SpeedUnit.mph => div v (m_speed multipliers)
  | _ => mul v (m_speed multipliers)
  end.

(** The final [return v] of the source is not reachable: the enum has no
    third member. *)
Definition convertSpringRateToNewtons (value : Value) (from : SpringRateUnit.t)
  : number :=
  let v := ensureFloat value in
  match from with
  | SpringRateUnit.kgf => div v (newtonsKgf (m_springs multipliers))
  | SpringRateUnit.lbs => div v (newtonsLbs (m_springs multipliers))
  end.

Definition convertSpringRateFromNewtons (value : number) (to : SpringRateUnit.t)
  : number :=
  match to with
  | SpringRateUnit.kgf => mul value (newtonsKgf (m_springs multipliers))
  | SpringRateUnit.lbs => mul value (newtonsLbs (m_springs multipliers))
  end.

Definition convertSpringRate (value : Value) (from to : SpringRateUnit.t)
  : number :=
  let newtons := convertSpringRateToNewtons value from in
  convertSpringRateFromNewtons newtons to.

(** An object literal used as a table: the entries in source order, looked
    up by key; [None] is [undefined]. *)
Fixpoint lookup {A : Type} (key : UnitOfMeasure)
  (table : list (UnitOfMeasure * A)) : option A :=
  match table with
  | [] => None
  | (k, a) :: rest => if unitEqb key k then Some a else lookup key rest
  end.

Definition convertToMap : list (UnitOfMeasure * (Value -> number)) :=
  [ (Pressure PressureUnit.bar,
       fun value => convertPressure value PressureUnit.psi);
    (Pressure PressureUnit.psi,
       fun value => convertPressure value PressureUnit.bar);
    (SpringRate SpringRateUnit.kgf,
       fun value => convertSpringRate value SpringRateUnit.kgf SpringRateUnit.lbs);
    (SpringRate SpringRateUnit.lbs,
       fun value => convertSpringRate value SpringRateUnit.lbs SpringRateUnit.kgf);
    (Length LengthUnit.cm,
       fun value => convertLength value LengthUnit.inch);
    (Length LengthUnit.inch,
       fun value => convertLength value LengthUnit.cm);
    (Force ForceUnit.kgf,
       fun value => convertForce value ForceUnit.lbf);
    (Force ForceUnit.lbf,
       fun value => convertForce value ForceUnit.kgf);
    (Speed SpeedUnit.kph,
       fun value => convertSpeed value SpeedUnit.mph);
    (Speed SpeedUnit.mph,
       fun value => convertSpeed value SpeedUnit.kph) ].

(** Calling [undefined] is a TypeError; [toFixed] may throw a RangeError. *)
Definition convertTo (value : Value) (to : UnitOfMeasure) (precision : nat)
  : completion string :=
  match lookup to convertToMap with
  | Some f => toFixed (f value) precision
  | None => Throw TypeError
  end.

End WithUtils.

Definition switchUnitMap : list (UnitOfMeasure * UnitOfMeasure) :=
  [ (Pressure PressureUnit.bar, Pressure PressureUnit.psi);
    (Pressure PressureUnit.psi, Pressure PressureUnit.bar);
    (SpringRate SpringRateUnit.kgf, SpringRate SpringRateUnit.lbs);
    (SpringRate SpringRateUnit.lbs, SpringRate SpringRateUnit.kgf);
    (Length LengthUnit.cm, Length LengthUnit.inch);
    (Length LengthUnit.inch, Length LengthUnit.cm);
    (Force ForceUnit.kgf, Force ForceUnit.lbf);
    (Force ForceUnit.lbf, Force ForceUnit.kgf);
    (Speed SpeedUnit.kph, Speed SpeedUnit.mph);
    (Speed SpeedUnit.mph, Speed SpeedUnit.kph) ].

(** [switchUnitMap[unit]]; [None] is [undefined]. *)
Definition switchUnit (unit : UnitOfMeasure) : option UnitOfMeasure :=
  lookup unit switchUnitMap.

End Conversions.

(** ** formatter/motorsport/fm-discord-generator.ts: the chat renderer *)

Module Discord.

Import JS.

Definition tableSeparator : string := "".

Definition h1 (text : string) : string := "== " ++ text ++ " ==" ++ nl.

Definition h2 (text : string) : string := "-- " ++ text ++ " --".

(** The string members of [falseyValues]; [null] and [undefined] are not
    strings. *)
Definition falseyValues : list string := [""; "N/A"; "Stock"; "None"].

Definition showValue (value : string) : bool :=
  negb (includes falseyValues value).

Module TextAlign.
Inductive t : Type := left | right | center.
End TextAlign.

(** A column width is a length or, once a row is longer than the first
    one, [NaN] ([None]): [Math.max(undefined, n)] is [NaN], and so is
    [Math.max(NaN, n)]. *)
Definition setWidth (widths : list (option nat)) (index len : nat)
  : list (option nat) :=
  match nth_error widths index with
  | Some (Some w) =>
      (firstn index widths ++ Some (Nat.max w len) :: skipn (S index) widths)%list
  | Some None => widths
  | None =>
      (widths ++ repeat None (index - List.length widths) ++ [None])%list
  end.

Fixpoint rowWidths (row : list string) (index : nat)
  (widths : list (option nat)) : list (option nat) :=
  match row with
  | [] => widths
  | cell :: rest =>
      rowWidths rest (S index) (setWidth widths index (String.length cell))
  end.

(** [rows] is not empty at the only call site. *)
Definition getColumnWidths (rows : list (list string)) : list (option nat) :=
  fold_left (fun widths row => rowWidths row 0 widths) rows
            (repeat (Some 0) (List.length (hd [] rows))).

(** ToLength of [widths[index]]: [undefined] and [NaN] are 0. *)
Definition widthAt (widths : list (option nat)) (index : nat) : nat :=
  match nth_error widths index with
  | Some (Some w) => w
  | _ => 0
  end.

Definition formatTableRow (row : list string) (widths : list (option nat))
  (alignment : TextAlign.t) : string :=
  let rowText :=
    mapi (fun cell index =>
            let width := widthAt widths index in
            if String.eqb cell "/" then cell
            else match alignment with
                 | TextAlign.center => padEnd (padStart cell (width / 2)) width
                 | TextAlign.left => padEnd cell width
                 | TextAlign.right => padStart cell width
                 end) row in
  trim (join " " rowText).

Definition formatTable (header : string) (body : list (list string))
  (alignment : TextAlign.t) : list string :=
  match body with
  | [] => []
  | _ =>
      let widths := getColumnWidths body in
      ((if truthyStr header then [h2 header] else [])
       ++ map (fun row => formatTableRow row widths alignment) body
       ++ [tableSeparator])%list
  end.

Fixpoint separate (values : list string) (separator : string) : list string :=
  match values with
  | [] => []
  | [v] => [v]
  | v :: rest => v :: separator :: separate rest separator
  end.

Section WithLib.

Context {U : Utils} {M : UnitsOfMeasure}.

(** The rows pushed to [body] by [formatFrontRearWithUnit]. *)
Definition frontRearWithUnitBody (value : FrontAndRearWithUnits)
  (precision : nat) (showAll : bool) : list (list string) :=
  ((if showAll || showValue (wu_front value) then
      let numValue := if String.eqb (wu_front value) "Stock"
                      then Num zero else Str (wu_front value) in
      [ "F " :: separate (formatUnit numValue (units value) precision (Some true)) "/" ]
    else [])
   ++
   (if showAll || showValue (wu_rear value) then
      let numValue := if String.eqb (wu_front value) "Stock"
                      then Num zero else Str (wu_rear value) in
      [ "R " :: separate (formatUnit numValue (units value) precision (Some true)) "/" ]
    else []))%list.

Definition formatFrontRearWithUnit (header : string)
  (value : FrontAndRearWithUnits) (precision : nat) (showAll : bool)
  : list string :=
  if wu_na value then []
  else
    let body := frontRearWithUnitBody value precision showAll in
    match body with
    | [] => []
    | _ => formatTable header body TextAlign.right
    end.

(** [parseFloat(ratios[index])]; [parseFloat(undefined)] is [NaN]. *)
Definition parseRatio (ratios : list string) (index : nat) : number :=
  match nth_error ratios index with
  | Some r => parseFloat r
  | None => NaN
  end.

(** The [for] loop of [formatGears] from [index] on, [rest] being the
    ratios at [index] and after: the rows it pushes until it breaks. *)
Fixpoint gearRows (index : nat) (rest : list string) : list (list string) :=
  match rest with
  | [] => []
  | r :: rest' =>
      if negb (showValue r) then []
      else
        let value := parseFloat r in
        [natToString index ++ addSuffix index; toFixedStr value 2]
          :: gearRows (S index) rest'
  end.

Definition gearsBody (tune : TuneSettings) : list (list string) :=
  ["FR"; toFixedStr (parseRatio (ratios (gears tune)) 0) 2]
    :: gearRows 1 (skipn 1 (ratios (gears tune))).

Definition formatGears (tune : TuneSettings) : list string :=
  if gears_na (gears tune) then []
  else
    let body := gearsBody tune in
    if (List.length body =? 1)%nat
       && match nth_error (ratios (gears tune)) 0 with
          | Some r => String.eqb r ""
          | None => false
          end
    then []
    else h1 "Gearing" :: formatTable "" body TextAlign.left.

(** The rows pushed to [lines] by [formatBrakes]. *)
Definition brakeLines (tune : TuneSettings) : list (list string) :=
  ((if showValue (bias (brake tune))
       && negb (String.eqb (bias (brake tune)) "50")
    then [["Balance"; formatFloat (Str (bias (brake tune))) 0 "%"]] else [])
   ++
   (if showValue (pressure (brake tune))
       && negb (String.eqb (pressure (brake tune)) "100")
    then [["Pressure"; formatFloat (Str (pressure (brake tune))) 0 "%"]]
    else []))%list.

Definition formatBrakes (tune : TuneSettings) : list string :=
  if brake_na (brake tune) then []
  else
    let lines := brakeLines tune in
    match lines with
    | [] => []
    | _ => h1 "Brakes" :: formatTable "" lines TextAlign.left
    end.

Definition formatDiffLine (label : string) (setting : AccelDecelSettings)
  : list string :=
  let a := if showValue (accel setting)
           then formatFloat (Str (accel setting)) 0 "%" else "-" in
  let d := if showValue (decel setting)
           then formatFloat (Str (decel setting)) 0 "%" else "-" in
  if String.eqb a "-" && String.eqb d "-" then [] else [label; a; d].

Definition formatDifferential (diff : DifferentialTuneSettings)
  (driveType : DriveType) : list string :=
  if diff_na diff then []
  else
    let front := formatDiffLine "F " (diff_front diff) in
    let rear := formatDiffLine "R " (diff_rear diff) in
    let body := ((if nonEmpty front then [front] else [])
                 ++ (if nonEmpty rear then [rear] else []))%list in
    let lines :=
      ((if nonEmpty body
        then formatTable "" (["-"; "Accel"; "Decel"] :: body) TextAlign.left
        else [])
       ++
       (if showValue (center diff) && negb (String.eqb (center diff) "50")
        then [("Center " ++ formatFloat (Str (center diff)) 0 "%")%string; ""]
        else []))%list in
    match lines with
    | [] => []
    | _ => h1 "Differential" :: lines
    end.

(** The rows pushed to [lines] by [formatSteeringWheel]. *)
Definition steeringWheelLines (tune : TuneSettings) : list (list string) :=
  ((if showValue (ffbScale (steeringWheel tune))
       && negb (String.eqb (ffbScale (steeringWheel tune)) "100")
    then [["FFB Scale"; ffbScale (steeringWheel tune)]] else [])
   ++
   (if showValue (steeringLockRange (steeringWheel tune))
       && negb (String.eqb (steeringLockRange (steeringWheel tune)) "900")
    then [["Steering Lock"; steeringLockRange (steeringWheel tune)]]
    else []))%list.

Definition formatSteeringWheel (tune : TuneSettings) : list string :=
  if sw_na (steeringWheel tune) then []
  else
    let lines := steeringWheelLines tune in
    match lines with
    | [] => []
    | _ => h1 "Steering Wheel" :: formatTable "" lines TextAlign.left
    end.

End WithLib.

End Discord.

(** ** The markdown renderer (the generator whose default export is
    [fmRedditGenerator]) *)

Module Reddit.

Import JS.

Definition tableSeparator : string := nl ++ "######" ++ nl.

Definition bold (value : string) : string :=
  if negb (truthyStr value) then value
  else "**" ++ removeDoubleStars value ++ "**".

(** [r[0] = bold(r[0])] on an empty row stores [undefined], which [join]
    prints as the empty string, as it prints the empty row. *)
Definition formatTableRow (row : list string) (boldFirstCol : bool) : string :=
  let r := if boldFirstCol
           then match row with
                | [] => []
                | c :: rest => bold c :: rest
                end
           else row in
  "|" ++ join "|" r ++ "|".

Definition falseyValues : list string := [""; "N/A"; "Stock"; "None"].

Definition showValue (value : string) : bool :=
  negb (includes falseyValues value).

Module TextAlign.
Inductive t : Type := left | right | center.
(** The string value of the enum member. *)
Definition text (a : t) : string :=
  match a with
  | left => ":--"
  | right => "--:"
  | center => ":-:"
  end.
End TextAlign.

Definition formatTable (header : list string) (body : list (list string))
  (boldFirstCol : bool) (textAlign : TextAlign.t) : list string :=
  let rowSeparator :=
    ([":--"; TextAlign.text textAlign]
     ++ repeat (TextAlign.text textAlign) (List.length header - 2))%list in
  (formatTableRow (map bold header) false
   :: formatTableRow rowSeparator false
   :: map (fun row => formatTableRow row boldFirstCol) body
   ++ [tableSeparator])%list.

Section WithLib.

Context {U : Utils} {M : UnitsOfMeasure}.

Definition formatFrontRearWithUnit (header : string)
  (value : FrontAndRearWithUnits) (precision : nat) : list string :=
  let headers := header :: formatUnitHeaders (units value) in
  if wu_na value then
    formatTable headers
      [ "Not Applicable" :: formatUnit (Str "") (units value) precision None ]
      false TextAlign.right
  else
    let body :=
      [ "Front" :: formatUnit (Str (wu_front value)) (units value) precision None;
        "Rear" :: formatUnit (Str (wu_rear value)) (units value) precision None ] in
    formatTable headers body false TextAlign.right.

Definition parseRatio (ratios : list string) (index : nat) : number :=
  match nth_error ratios index with
  | Some r => parseFloat r
  | None => NaN
  end.

(** The [for] loop of [formatGears] from [index] on, [rest] being the
    ratios at [index] and after: the rows it pushes until it breaks. *)
Fixpoint gearRows (index : nat) (rest : list string) : list (list string) :=
  match rest with
  | [] => []
  | r :: rest' =>
      let value := parseFloat r in
      if negb (truthy value) then []
      else
        [natToString index ++ addSuffix index; toFixedStr value 2]
          :: gearRows (S index) rest'
  end.

Definition gearsBody (tune : TuneSettings) : list (list string) :=
  ["Final Drive"; toFixedStr (parseRatio (ratios (gears tune)) 0) 2]
    :: gearRows 1 (skipn 1 (ratios (gears tune))).

Definition formatGears (tune : TuneSettings) : list string :=
  let headers := ["Gears"; "Ratio"] in
  if gears_na (gears tune) then
    formatTable headers [["Not Applicable"; ""]] false TextAlign.right
  else
    let body := gearsBody tune in
    if (List.length body =? 1)%nat
       && match nth_error (ratios (gears tune)) 0 with
          | Some r => String.eqb r ""
          | None => false
          end
    then []
    else formatTable headers body false TextAlign.right.

Definition formatSprings (tune : TuneSettings) : list string :=
  let headers := ["ARBs"; ""] in
  if na (arb tune) then
    formatTable headers [["Not Applicable"; ""]] false TextAlign.right
  else
    (formatFrontRearWithUnit "Springs" (springs tune) 1
     ++ formatFrontRearWithUnit "Ride Height" (rideHeight tune) 1)%list.

Definition formatBrakes (tune : TuneSettings) : list string :=
  let headers := ["Brakes"; "%"] in
  if negb (truthyStr (bias (brake tune)))
     && negb (truthyStr (pressure (brake tune)))
  then formatTable headers [["Not Applicable"; ""]] false TextAlign.right
  else
    formatTable headers
      [ ["Balance"; formatFloat (Str (bias (brake tune))) 0 "%"];
        ["Pressure"; formatFloat (Str (pressure (brake tune))) 0 "%"] ]
      false TextAlign.right.

(** The rows pushed to [body] by [formatDifferential]. *)
Definition differentialBody (diff : DifferentialTuneSettings)
  : list (list string) :=
  ((if showValue (accel (diff_front diff)) || showValue (decel (diff_front diff))
    then [["Front"; formatFloat (Str (accel (diff_front diff))) 0 "%";
           formatFloat (Str (decel (diff_front diff))) 0 "%"]]
    else [])
   ++
   (if showValue (accel (diff_rear diff)) || showValue (decel (diff_rear diff))
    then [["Rear"; formatFloat (Str (accel (diff_rear diff))) 0 "%";
           formatFloat (Str (decel (diff_rear diff))) 0 "%"]]
    else [])
   ++
   (if showValue (center diff)
    then [["Center"; formatFloat (Str (center diff)) 0 "%"; ""]]
    else []))%list.

Definition formatDifferential (diff : DifferentialTuneSettings)
  (driveType : DriveType) : list string :=
  let header := ["Differential"; "Accel"; "Decel"] in
  if diff_na diff then
    formatTable header [["Not Applicable"; ""; ""]] false TextAlign.right
  else
    formatTable header (differentialBody diff) false TextAlign.right.

Definition formatSteeringWheel (tune : TuneSettings) : list string :=
  let headers := ["Steering Wheel"; ""] in
  if sw_na (steeringWheel tune) then
    formatTable headers [["Not Applicable"; ""]] false TextAlign.right
  else
    formatTable headers
      [ ["FFB Scale"; ffbScale (steeringWheel tune)];
        ["Steering Lock Range"; steeringLockRange (steeringWheel tune)] ]
      false TextAlign.right.

End WithLib.

(** The rows pushed to [body] by [formatConversions]. *)
Definition conversionsBody (upgrades : PerformanceUpgrades)
  (driveType : DriveType) : list (list string) :=
  ([ ["Engine"; orElse (engine (conversions upgrades)) "Stock"];
     ["Drivetrain"; orElse driveType "Stock"] ]
   ++
   (if truthyStr (aspiration (conversions upgrades))
    then [["Aspiration"; orElse (aspiration (conversions upgrades)) "Stock"]]
    else [])
   ++
   (if truthyStr (aspiration (conversions upgrades))
    then [["Body Kit"; orElse (bodyKit (conversions upgrades)) "Stock"]]
    else []))%list.

Definition formatConversions (upgrades : PerformanceUpgrades)
  (driveType : DriveType) : list string :=
  let headers := ["Conversions"; ""] in
  formatTable headers (conversionsBody upgrades driveType)
              false TextAlign.left.

End Reddit.

(** ** An implementation of the missing helpers, for running the model *)

Module SpecModel.

Import JS.

(** Modelled from the spec: [ensureFloat] of lib/utils is not among the
    sources.  Section 4.1: "parse as float, default to 0 on failure"; a
    value that is already a number is taken as it is. *)
Definition ensureFloat (value : Value) : number :=
  match value with
  | Num x => x
  | Str s => let x := parseFloat s in if isNaN x then zero else x
  end.

(** Modelled from the spec: [formatFloat] of lib/utils is not among the
    sources.  Sections 4.3 and 7: the value is coerced as [ensureFloat]
    does, rendered in fixed point with the given precision, and the suffix
    is appended. *)
Definition formatFloat (value : Value) (precision : nat) (suffix : string)
  : string :=
  toFixedStr (ensureFloat value) precision ++ suffix.

(** Modelled from the spec: [addSuffix] of lib/utils is not among the
    sources.  Section 4.4: "1 -> st, 2 -> nd, 3 -> rd, else th, with 11-13
    as an exception already th". *)
Definition addSuffix (n : nat) : string :=
  if ((11 <=? n mod 100) && (n mod 100 <=? 13))%nat then "th"
  else match (n mod 10)%nat with
       | 1 => "st"
       | 2 => "nd"
       | 3 => "rd"
       | _ => "th"
       end.

Definition utils : Utils := Build_Utils ensureFloat formatFloat addSuffix.

(** Modelled from the spec: the unit labels of lib/types are not among the
    sources; these are the names the spec gives the units. *)
Definition unitLabel (u : UnitOfMeasure) : string :=
  match u with
  | Pressure PressureUnit.bar => "bar"
  | Pressure PressureUnit.psi => "psi"
  | SpringRate SpringRateUnit.kgf => "kgf/mm"
  | SpringRate SpringRateUnit.lbs => "lbs/in"
  | Length LengthUnit.cm => "cm"
  | Length LengthUnit.inch => "in"
  | Force ForceUnit.kgf => "kgf"
  | Force ForceUnit.lbf => "lbf"
  | Speed SpeedUnit.kph => "kph"
  | Speed SpeedUnit.mph => "mph"
  end.

Definition unitSuffix (showUnit : option bool) (u : UnitOfMeasure) : string :=
  match showUnit with
  | Some true => " " ++ unitLabel u
  | _ => ""
  end.

(** Modelled from the spec: [formatUnit] of lib/unitsOfMeasure is not among
    the sources.  Section 4.3: a pair of displays, the value in its unit
    and converted into the paired unit, each in fixed point with the given
    precision and an optional unit label after a space; an empty value
    gives the blank pair. *)
Definition formatUnit (value : Value) (unit : UnitOfMeasure) (precision : nat)
  (showUnit : option bool) : list string :=
  match value with
  | Str EmptyString => [""; ""]
  | _ =>
      [ formatFloat value precision (unitSuffix showUnit unit);
        match Conversions.switchUnit unit with
        | Some other =>
            match Conversions.convertTo (U := utils) value other precision with
            | Normal text => text ++ unitSuffix showUnit other
            | Throw _ => ""
            end
        | None => ""
        end ]
  end.

(** Modelled from the spec: [formatUnitHeaders] of lib/unitsOfMeasure is
    not among the sources.  Section 4.3: the label of the unit and the
    label of its paired unit. *)
Definition formatUnitHeaders (unit : UnitOfMeasure) : list string :=
  [ unitLabel unit;
    match Conversions.switchUnit unit with
    | Some other => unitLabel other
    | None => ""
    end ].

Definition unitsOfMeasure : UnitsOfMeasure :=
  Build_UnitsOfMeasure formatUnit formatUnitHeaders.

End SpecModel.

(** * Vocabulary of the specification *)

Module Spec.

Import JS Conversions.

(** The other member of each two-member unit enum. *)
Definition otherPressure (u : PressureUnit.t) : PressureUnit.t :=
  match u with PressureUnit.bar => PressureUnit.psi | PressureUnit.psi => PressureUnit.bar end.

Definition otherSpringRate (u : SpringRateUnit.t) : SpringRateUnit.t :=
  match u with SpringRateUnit.kgf => SpringRateUnit.lbs | SpringRateUnit.lbs => SpringRateUnit.kgf end.

Definition otherLength (u : LengthUnit.t) : LengthUnit.t :=
  match u with LengthUnit.cm => LengthUnit.inch | LengthUnit.inch => LengthUnit.cm end.

Definition otherForce (u : ForceUnit.t) : ForceUnit.t :=
  match u with ForceUnit.kgf => ForceUnit.lbf | ForceUnit.lbf => ForceUnit.kgf end.

Definition otherSpeed (u : SpeedUnit.t) : SpeedUnit.t :=
  match u with SpeedUnit.kph => SpeedUnit.mph | SpeedUnit.mph => SpeedUnit.kph end.

(** "Converting [v] from the unit [from] into its paired opposite unit":
    the converter of the quantity of [from], called with [from] as the
    unit the value is in (for spring rates, through newtons into the other
    spring-rate unit). *)
Definition convertFrom {U : Utils} (v : Value) (from : UnitOfMeasure) : number :=
  match from with
  | Pressure u => convertPressure v u
  | SpringRate u => convertSpringRate v u (otherSpringRate u)
  | Length u => convertLength v u
  | Force u => convertForce v u
  | Speed u => convertSpeed v u
  end.

(** The body of the table that the markdown renderer makes of a
    front/rear setting with units: the placeholder row when the setting is
    not applicable, the front and the rear row otherwise. *)
Definition unitTableBody {M : UnitsOfMeasure} (value : FrontAndRearWithUnits)
  (precision : nat) : list (list string) :=
  if wu_na value then
    [ "Not Applicable" :: formatUnit (Str "") (units value) precision None ]
  else
    [ "Front" :: formatUnit (Str (wu_front value)) (units value) precision None;
      "Rear" :: formatUnit (Str (wu_rear value)) (units value) precision None ].

(** The rows of the chat renderer for a front/rear setting with units,
    each made of the value it is rendered from. *)
Definition frontRowFrom {M : UnitsOfMeasure} (v : Value)
  (value : FrontAndRearWithUnits) (precision : nat) : list string :=
  "F " :: Discord.separate (formatUnit v (units value) precision (Some true)) "/".

Definition rearRowFrom {M : UnitsOfMeasure} (v : Value)
  (value : FrontAndRearWithUnits) (precision : nat) : list string :=
  "R " :: Discord.separate (formatUnit v (units value) precision (Some true)) "/".

(** A setting whose front value is the string "Stock" and whose rear value
    is a number. *)
Definition stockFrontSprings : FrontAndRearWithUnits := {|
  wu_front := "Stock";
  wu_rear := "2.0";
  wu_na := false;
  units := SpringRate SpringRateUnit.kgf;
|}.

(** The sentinel strings: "empty", "N/A", "Stock" and "None". *)
Definition sentinel (s : string) : Prop :=
  s = "" \/ s = "N/A" \/ s = "Stock" \/ s = "None".

(** A tune in which every section is applicable and nothing is left at an
    assumed factory default, with the given gear ratios. *)
Definition blank : FrontAndRearSettings :=
  {| front := ""; rear := ""; na := false |}.

Definition sampleTune (gearRatios : list string) : TuneSettings := {|
  tires := {| wu_front := "2.0"; wu_rear := "2.1"; wu_na := false;
              units := Pressure PressureUnit.bar |};
  gears := {| ratios := gearRatios; gears_na := false |};
  alignment := {| camber := blank; toe := blank; caster := "";
                  steeringAngle := ""; alignment_na := false |};
  arb := blank;
  springs := stockFrontSprings;
  rideHeight := {| wu_front := "10"; wu_rear := "11"; wu_na := false;
                   units := Length LengthUnit.cm |};
  bump := blank;
  rebound := blank;
  rollCenterHeightOffset := {| wu_front := ""; wu_rear := ""; wu_na := false;
                               units := Length LengthUnit.cm |};
  antiGeometryPercent := blank;
  aero := {| wu_front := ""; wu_rear := ""; wu_na := false;
             units := Force ForceUnit.kgf |};
  brake := {| brake_na := false; bias := "48"; pressure := "100" |};
  diff := {| diff_front := {| accel := "50"; decel := "50" |};
             diff_rear := {| accel := ""; decel := "" |};
             center := "50"; diff_na := false |};
  steeringWheel := {| sw_na := false; ffbScale := "100";
                      steeringLockRange := "540" |};
|}.

(** The differential setting of the section-suppression scenario. *)
Definition scenarioDiff : DifferentialTuneSettings := {|
  diff_front := {| accel := "50"; decel := "50" |};
  diff_rear := {| accel := ""; decel := "" |};
  center := "50";
  diff_na := false;
|}.

(** The gear ratios of the truncation scenario. *)
Definition scenarioRatios : list string :=
  ["3.50"; "2.10"; "1.40"; ""; ""; ""; ""; ""; ""; ""; ""].

Fixpoint takeWhile {A : Type} (p : A -> bool) (l : list A) : list A :=
  match l with
  | [] => []
  | x :: rest => if p x then x :: takeWhile p rest else []
  end.

(** The ratios after the final drive and before the first empty slot. *)
Definition ratiosBeforeFirstEmpty (ratios : list string) : list string :=
  takeWhile (fun r => negb (String.eqb r "")) (skipn 1 ratios).

(** The ratios after the final drive and before the first one that the
    chat renderer does not show. *)
Definition shownRatios (ratios : list string) : list string :=
  takeWhile Discord.showValue (skipn 1 ratios).

(** The ratios after the final drive and before the first one that
    [parseFloat] reads as [NaN] or as zero. *)
Definition parsedRatios (ratios : list string) : list string :=
  takeWhile (fun r => truthy (parseFloat r)) (skipn 1 ratios).

(** The data row of the gear at [index] whose ratio is the string [r]. *)
Definition gearRow {U : Utils} (r : string) (index : nat) : list string :=
  [natToString index ++ addSuffix index; toFixedStr (parseFloat r) 2].

(** The data rows of a section of the chat renderer are its lines without
    the heading and the closing separator; those of a table of the
    markdown renderer are its lines without the header row, the alignment
    row and the closing separator. *)
Definition chatDataRows (output : list string) : nat := List.length output - 2.

Definition markdownDataRows (output : list string) : nat :=
  List.length output - 3.

(** Some line of [output] starts with [label]. *)
Definition hasLineStarting (label : string) (output : list string) : Prop :=
  exists line : string, In line output /\ JS.startsWith label line = true.

(** Some row of [body] has [label] as its first cell. *)
Definition hasRow (label : string) (body : list (list string)) : Prop :=
  exists cells : list string, In (label :: cells) body.

End Spec.

(** * Properties *)

Module Props.

Import JS Conversions.

(** ** The unit pairing table *)

Lemma unitEqb_eq (a b : UnitOfMeasure) : unitEqb a b = true <-> a = b.
Proof.
  split.
  - destruct a as [[]|[]|[]|[]|[]], b as [[]|[]|[]|[]|[]];
      simpl; intro E; try reflexivity; discriminate E.
  - intros ->. destruct b as [[]|[]|[]|[]|[]]; reflexivity.
Qed.

Lemma allUnits_complete (u : UnitOfMeasure) : In u allUnits.
Proof.
  destruct u as [[]|[]|[]|[]|[]]; simpl; tauto.
Qed.

Lemma allUnits_NoDup : NoDup allUnits.
Proof.
  unfold allUnits.
  repeat (constructor; [simpl; intuition discriminate|]).
  constructor.
Qed.

(** C7: [switchUnit] is defined on each of the ten units; its result is a
    different unit of the same physical quantity, the only such unit, and
    switching twice gives the unit back. *)
Theorem switchUnit_total_involutive :
  List.length allUnits = 10%nat /\
  NoDup allUnits /\
  forall u : UnitOfMeasure,
    In u allUnits /\
    exists u' : UnitOfMeasure,
      switchUnit u = Some u' /\
      switchUnit u' = Some u /\
      u' <> u /\
      quantityOf u' = quantityOf u /\
      forall w : UnitOfMeasure,
        w <> u -> quantityOf w = quantityOf u -> w = u'.
Proof.
  split; [reflexivity|]. split; [exact allUnits_NoDup|].
  intro u. split; [apply allUnits_complete|].
  destruct u as [[]|[]|[]|[]|[]];
    (eexists; split; [reflexivity|]; split; [reflexivity|];
     split; [discriminate|]; split; [reflexivity|];
     intros [[]|[]|[]|[]|[]] Hne Hq; try discriminate Hq;
     try reflexivity; exfalso; apply Hne; reflexivity).
Qed.

(** ** Weight to mass *)

(** C8: [convertWeightToMass(v, u)] is [ensureFloat(v)] divided by the
    spring-rate newtons constant of [u] (0.1019716212978 for kg,
    0.57101471743224 otherwise) and that quotient divided by 9.80665. *)
Theorem convertWeightToMass_two_divisions :
  forall (U : Utils) (v : Value) (u : WeightUnit.t),
    convertWeightToMass v u =
    div (div (ensureFloat v)
             (match u with
              | WeightUnit.kg => ofDecimal false 1019716212978 (-13)
              | _ => ofDecimal false 57101471743224 (-14)
              end))
        (ofDecimal false 980665 (-5)).
Proof.
  intros U v [ | ]; reflexivity.
Qed.

(** ** Strings *)

Lemma truthyStr_true_iff (s : string) : truthyStr s = true <-> s <> "".
Proof.
  destruct s; simpl; split; intro H; try reflexivity;
    try discriminate; try congruence.
Qed.

Lemma orElse_spec (a b : string) :
  orElse a b = if String.eqb a "" then b else a.
Proof.
  destruct a; reflexivity.
Qed.

Lemma startsWith_app (p s : string) : startsWith p (p ++ s) = true.
Proof.
  induction p as [|c p IH]; simpl; [reflexivity|].
  rewrite Ascii.eqb_refl. exact IH.
Qed.

Lemma join_cons (sep x : string) (rest : list string) :
  join sep (x :: rest) =
  match rest with [] => x | _ => x ++ sep ++ join sep rest end.
Proof.
  destruct rest; reflexivity.
Qed.

Lemma append_assoc (x y z : string) : (x ++ y) ++ z = x ++ (y ++ z).
Proof.
  induction x as [|c x IH]; simpl; [reflexivity|]. now rewrite IH.
Qed.

Lemma trimEnd_cons (c : ascii) (s : string) :
  isWhiteSpace c = false -> trimEnd (String c s) = String c (trimEnd s).
Proof.
  intro H. simpl. rewrite H. destruct (trimEnd s); reflexivity.
Qed.

(** Trailing whitespace is removed after the last character that is not
    whitespace, and nothing before it. *)
Lemma trimEnd_keep (a : string) (c : ascii) (t : string) :
  isWhiteSpace c = false ->
  trimEnd (a ++ String c t) = a ++ String c (trimEnd t).
Proof.
  intro H. induction a as [|x a IH].
  - apply trimEnd_cons, H.
  - change (trimEnd (String x (a ++ String c t)) =
            String x (a ++ String c (trimEnd t))).
    simpl. rewrite IH. destruct a; reflexivity.
Qed.

Lemma showValue_discord_iff (s : string) :
  Discord.showValue s = true <-> ~ Spec.sentinel s.
Proof.
  unfold Discord.showValue, Discord.falseyValues, includes, Spec.sentinel.
  simpl. rewrite negb_true_iff, !orb_false_iff, !String.eqb_neq.
  intuition congruence.
Qed.

Lemma showValue_reddit_iff (s : string) :
  Reddit.showValue s = true <-> ~ Spec.sentinel s.
Proof.
  exact (showValue_discord_iff s).
Qed.

(** ** The chat table *)

Lemma discord_table_rows (body : list (list string)) (a : Discord.TextAlign.t) :
  body <> [] ->
  Discord.formatTable "" body a =
  (map (fun row => Discord.formatTableRow row (Discord.getColumnWidths body) a) body
   ++ [""])%list.
Proof.
  destruct body; [congruence|reflexivity].
Qed.

Lemma append_nil_r (s : string) : s ++ "" = s.
Proof.
  induction s as [|c s IH]; simpl; [reflexivity|]. now rewrite IH.
Qed.

(** A left-aligned row whose first cell starts and ends with a character
    that is not whitespace is printed with that cell at the start of the
    line. *)
Lemma discord_row_text (c0 : ascii) (a : string) (c : ascii)
  (cells : list string) (widths : list (option nat)) :
  isWhiteSpace c0 = false ->
  isWhiteSpace c = false ->
  exists t : string,
    Discord.formatTableRow (String c0 (a ++ String c "") :: cells) widths
                           Discord.TextAlign.left
    = String c0 (a ++ String c t).
Proof.
  intros H0 Hc.
  unfold Discord.formatTableRow, mapi.
  assert (E : String.eqb (String c0 (a ++ String c "")) "/" = false).
  { apply String.eqb_neq. destruct a; simpl; discriminate. }
  cbn [mapFrom]. rewrite E, join_cons. unfold padEnd.
  set (k := spaces _).
  assert (F : forall tail : string,
             trim (String c0 (a ++ String c "") ++ k ++ tail)
             = String c0 (a ++ String c (trimEnd (k ++ tail)))).
  { intro tail. unfold trim.
    change (String c0 (a ++ String c "") ++ k ++ tail)
      with (String c0 ((a ++ String c "") ++ k ++ tail)).
    cbn [trimStart]. rewrite H0.
    rewrite append_assoc. cbn [append].
    change (String c0 (a ++ String c (k ++ tail)))
      with (String c0 a ++ String c (k ++ tail)).
    rewrite trimEnd_keep by exact Hc. reflexivity. }
  destruct (mapFrom _ 1 cells) as [|y ys].
  - exists (trimEnd (k ++ "")). rewrite <- F, append_nil_r. reflexivity.
  - eexists. rewrite append_assoc. apply F.
Qed.

(** The lines of a section of the chat renderer: nothing when there is no
    row, otherwise the heading, one line per row and the separator. *)
Lemma discord_section_lines (title : string) (lines : list (list string))
  (line : string) :
  In line (match lines with
           | [] => []
           | _ => Discord.h1 title
                    :: Discord.formatTable "" lines Discord.TextAlign.left
           end) <->
  lines <> [] /\
  (line = Discord.h1 title \/
   (exists row, In row lines /\
      line = Discord.formatTableRow row (Discord.getColumnWidths lines)
                                    Discord.TextAlign.left) \/
   line = "").
Proof.
  destruct lines as [|r rs].
  - simpl. split; [tauto|]. intros [H _]. congruence.
  - rewrite discord_table_rows by discriminate.
    set (body := r :: rs).
    cbn [In]. rewrite in_app_iff, in_map_iff. cbn [In].
    split.
    + intros [H|[[row [H1 H2]]|[H|[]]]]; (split; [discriminate|]); subst; auto.
      right; left; exists row; auto.
    + intros [_ [H|[[row [H1 H2]]|H]]]; subst; auto.
      right; left; exists row; auto.
Qed.

Lemma startsWith_cons_neq (x0 y0 : ascii) (p s : string) :
  Ascii.eqb x0 y0 = false -> startsWith (String x0 p) (String y0 s) = false.
Proof.
  intro H. simpl. now rewrite H.
Qed.

(** A section of the chat renderer made of two optional rows: each row is
    a line of the section exactly when its condition holds. *)
Lemma discord_optional_rows (title : string) (c1 c2 : bool)
  (x0 : ascii) (x : string) (x1 : ascii) (cells1 : list string)
  (y0 : ascii) (y : string) (y1 : ascii) (cells2 : list string) :
  isWhiteSpace x0 = false -> isWhiteSpace x1 = false ->
  isWhiteSpace y0 = false -> isWhiteSpace y1 = false ->
  Ascii.eqb x0 y0 = false -> Ascii.eqb x0 "=" = false ->
  Ascii.eqb y0 "=" = false ->
  let L1 := String x0 (x ++ String x1 "") in
  let L2 := String y0 (y ++ String y1 "") in
  let lines := ((if c1 then [L1 :: cells1] else [])
                ++ (if c2 then [L2 :: cells2] else []))%list in
  let out := match lines with
             | [] => []
             | _ => Discord.h1 title
                      :: Discord.formatTable "" lines Discord.TextAlign.left
             end in
  (Spec.hasLineStarting L1 out <-> c1 = true) /\
  (Spec.hasLineStarting L2 out <-> c2 = true).
Proof.
  intros Hx0 Hx1 Hy0 Hy1 Hxy Hx Hy L1 L2 lines out.
  assert (Hyx : Ascii.eqb y0 x0 = false) by (rewrite Ascii.eqb_sym; exact Hxy).
  assert (T1 : forall w, exists t,
             Discord.formatTableRow (L1 :: cells1) w Discord.TextAlign.left
             = String x0 (x ++ String x1 t))
    by (intro w; apply discord_row_text; assumption).
  assert (T2 : forall w, exists t,
             Discord.formatTableRow (L2 :: cells2) w Discord.TextAlign.left
             = String y0 (y ++ String y1 t))
    by (intro w; apply discord_row_text; assumption).
  assert (S1 : forall t, startsWith L1 (String x0 (x ++ String x1 t)) = true).
  { intro t. unfold L1. simpl. rewrite Ascii.eqb_refl. simpl.
    clear. induction x as [|c x IH]; simpl.
    - now rewrite Ascii.eqb_refl.
    - now rewrite Ascii.eqb_refl. }
  assert (S2 : forall t, startsWith L2 (String y0 (y ++ String y1 t)) = true).
  { intro t. unfold L2. simpl. rewrite Ascii.eqb_refl. simpl.
    clear. induction y as [|c y IH]; simpl.
    - now rewrite Ascii.eqb_refl.
    - now rewrite Ascii.eqb_refl. }
  unfold Spec.hasLineStarting, out.
  split; split.
  - intros [line [Hin Hs]]. apply discord_section_lines in Hin.
    destruct Hin as [_ [E|[[row [Hrow E]]|E]]]; subst line.
    + unfold L1, Discord.h1 in Hs. simpl in Hs. rewrite Hx in Hs. discriminate.
    + unfold lines in Hrow. apply in_app_or in Hrow.
      destruct Hrow as [Hrow|Hrow].
      * destruct c1; [reflexivity|destruct Hrow].
      * destruct c2; [|destruct Hrow]. destruct Hrow as [<-|[]].
        destruct (T2 (Discord.getColumnWidths lines)) as [t Ht].
        fold lines in Hs. rewrite Ht in Hs. unfold L1 in Hs.
        rewrite startsWith_cons_neq in Hs by exact Hxy. discriminate.
    + discriminate Hs.
  - intros ->. destruct (T1 (Discord.getColumnWidths lines)) as [t Ht].
    exists (String x0 (x ++ String x1 t)). split; [|apply S1].
    apply discord_section_lines. split.
    + unfold lines. simpl. discriminate.
    + right; left. exists (L1 :: cells1). split; [|now rewrite Ht].
      unfold lines. simpl. left. reflexivity.
  - intros [line [Hin Hs]]. apply discord_section_lines in Hin.
    destruct Hin as [_ [E|[[row [Hrow E]]|E]]]; subst line.
    + unfold L2, Discord.h1 in Hs. simpl in Hs. rewrite Hy in Hs. discriminate.
    + unfold lines in Hrow. apply in_app_or in Hrow.
      destruct Hrow as [Hrow|Hrow].
      * destruct c1; [|destruct Hrow]. destruct Hrow as [<-|[]].
        destruct (T1 (Discord.getColumnWidths lines)) as [t Ht].
        fold lines in Hs. rewrite Ht in Hs. unfold L2 in Hs.
        rewrite startsWith_cons_neq in Hs by exact Hyx. discriminate.
      * destruct c2; [reflexivity|destruct Hrow].
    + discriminate Hs.
  - intros ->. destruct (T2 (Discord.getColumnWidths lines)) as [t Ht].
    exists (String y0 (y ++ String y1 t)). split; [|apply S2].
    apply discord_section_lines. split.
    + unfold lines. destruct c1; simpl; discriminate.
    + right; left. exists (L2 :: cells2). split; [|now rewrite Ht].
      unfold lines. apply in_or_app. right. left. reflexivity.
Qed.

Lemma shown_and_not_default (s d : string) :
  Discord.showValue s && negb (String.eqb s d) = true <->
  ~ Spec.sentinel s /\ s <> d.
Proof.
  rewrite andb_true_iff, negb_true_iff, String.eqb_neq, showValue_discord_iff.
  tauto.
Qed.

(** ** The markdown table *)

Lemma reddit_table_lines (header : list string) (body : list (list string))
  (b : bool) (a : Reddit.TextAlign.t) (line : string) :
  In line (Reddit.formatTable header body b a) <->
  line = Reddit.formatTableRow (map Reddit.bold header) false \/
  line = Reddit.formatTableRow
           ([":--"; Reddit.TextAlign.text a]
            ++ repeat (Reddit.TextAlign.text a) (List.length header - 2))%list
           false \/
  (exists row, In row body /\ line = Reddit.formatTableRow row b) \/
  line = Reddit.tableSeparator.
Proof.
  unfold Reddit.formatTable. simpl. rewrite in_app_iff, in_map_iff. simpl.
  split.
  - intros [H|[H|[[row [H1 H2]]|[H|[]]]]]; subst; auto.
    right; right; left; exists row; auto.
  - intros [H|[H|[[row [H1 H2]]|H]]]; subst; auto.
    right; right; left; exists row; auto.
Qed.

Lemma reddit_row_in_table (header : list string) (body : list (list string))
  (b : bool) (a : Reddit.TextAlign.t) (row : list string) :
  In row body -> In (Reddit.formatTableRow row b) (Reddit.formatTable header body b a).
Proof.
  intro H. apply reddit_table_lines. right; right; left. exists row; auto.
Qed.

(** ** The Conversions table of the markdown renderer *)

(** C6: the Body Kit row of the Conversions table is there exactly when
    [aspiration] is not empty; its value cell is [bodyKit], or "Stock"
    when [bodyKit] is empty. *)
Theorem body_kit_row_tests_aspiration :
  forall (upgrades : PerformanceUpgrades) (driveType : DriveType),
    Reddit.formatConversions upgrades driveType =
      Reddit.formatTable ["Conversions"; ""]
        (Reddit.conversionsBody upgrades driveType) false Reddit.TextAlign.left /\
    (Spec.hasRow "Body Kit" (Reddit.conversionsBody upgrades driveType)
       <-> aspiration (conversions upgrades) <> "") /\
    (forall cells : list string,
        In ("Body Kit" :: cells) (Reddit.conversionsBody upgrades driveType) ->
        cells = [ if String.eqb (bodyKit (conversions upgrades)) ""
                  then "Stock" else bodyKit (conversions upgrades) ]) /\
    (Spec.hasLineStarting "|Body Kit|" (Reddit.formatConversions upgrades driveType)
       <-> aspiration (conversions upgrades) <> "") /\
    (In ("|Body Kit|" ++
         (if String.eqb (bodyKit (conversions upgrades)) ""
          then "Stock" else bodyKit (conversions upgrades)) ++ "|")
        (Reddit.formatConversions upgrades driveType)
       <-> aspiration (conversions upgrades) <> "").
Proof.
  intros [[asp kit eng drv]] driveType; simpl.
  assert (Hbody : forall cells,
             In ("Body Kit" :: cells)
                (Reddit.conversionsBody
                   {| conversions := {| aspiration := asp; bodyKit := kit;
                                        engine := eng; drivetrain := drv |} |}
                   driveType) ->
             asp <> "" /\
             cells = [if String.eqb kit "" then "Stock" else kit]).
  { intros cells. unfold Reddit.conversionsBody; simpl.
    destruct asp as [|c asp]; simpl.
    - intros [H|[H|[]]]; discriminate H.
    - rewrite (orElse_spec kit).
      intros [H|[H|[H|[H|[]]]]]; try discriminate H.
      injection H as <-. split; [discriminate|reflexivity]. }
  assert (Hrow : asp <> "" ->
             In ["Body Kit"; if String.eqb kit "" then "Stock" else kit]
                (Reddit.conversionsBody
                   {| conversions := {| aspiration := asp; bodyKit := kit;
                                        engine := eng; drivetrain := drv |} |}
                   driveType)).
  { intro Hasp. unfold Reddit.conversionsBody; simpl.
    destruct asp as [|c asp]; [congruence|]. simpl.
    rewrite (orElse_spec kit). right; right; right; left. reflexivity. }
  split; [reflexivity|].
  split.
  { split.
    - intros [cells H]. apply Hbody in H. tauto.
    - intro H. eexists. apply Hrow, H. }
  split.
  { intros cells H. apply Hbody in H. tauto. }
  assert (Hline : asp <> "" ->
            In ("|Body Kit|" ++
                (if String.eqb kit "" then "Stock" else kit) ++ "|")
               (Reddit.formatConversions
                  {| conversions := {| aspiration := asp; bodyKit := kit;
                                       engine := eng; drivetrain := drv |} |}
                  driveType)).
  { intro Hasp. unfold Reddit.formatConversions.
    apply (reddit_row_in_table _ _ false _ _ (Hrow Hasp)). }
  assert (Hinv : forall line,
            In line (Reddit.formatConversions
                  {| conversions := {| aspiration := asp; bodyKit := kit;
                                       engine := eng; drivetrain := drv |} |}
                  driveType) ->
            startsWith "|Body Kit|" line = true -> asp <> "").
  { intros line Hin Hpre. unfold Reddit.formatConversions in Hin.
    apply reddit_table_lines in Hin.
    destruct Hin as [H|[H|[[row [H1 H2]]|H]]]; subst line;
      try (vm_compute in Hpre; discriminate Hpre).
    unfold Reddit.conversionsBody in H1; simpl in H1.
    destruct asp as [|c asp]; [|discriminate].
    simpl in H1. destruct H1 as [H|[H|[]]]; subst row;
      simpl in Hpre; discriminate Hpre. }
  split.
  { split.
    - intros [line [Hin Hpre]]. eapply Hinv; eauto.
    - intro Hasp. eexists. split; [apply Hline, Hasp|]. reflexivity. }
  split.
  - intro Hin. eapply Hinv; [exact Hin|reflexivity].
  - exact Hline.
Qed.

(** ** The springs section of the markdown renderer *)

(** C9: the springs section of the markdown renderer is decided by the
    anti-roll-bar flag alone.  When [tune.arb.na] is set the section is one
    "Not Applicable" table headed "ARBs", whatever the springs and the ride
    height are; otherwise it is the Springs table followed by the Ride
    Height table, whose own [na] flags only choose between the
    placeholder row and the front and rear rows. *)
Theorem springs_section_follows_arb_flag :
  forall (M : UnitsOfMeasure) (tune : TuneSettings),
    Reddit.formatSprings tune =
    if na (arb tune) then
      [ "|**ARBs**||"; "|:--|--:|"; "|Not Applicable||"; Reddit.tableSeparator ]
    else
      (Reddit.formatTable
         ("Springs" :: formatUnitHeaders (units (springs tune)))
         (Spec.unitTableBody (springs tune) 1) false Reddit.TextAlign.right
       ++
       Reddit.formatTable
         ("Ride Height" :: formatUnitHeaders (units (rideHeight tune)))
         (Spec.unitTableBody (rideHeight tune) 1) false Reddit.TextAlign.right)%list.
Proof.
  intros M tune. unfold Reddit.formatSprings.
  destruct (na (arb tune)); [reflexivity|].
  unfold Reddit.formatFrontRearWithUnit, Spec.unitTableBody.
  destruct (wu_na (springs tune)), (wu_na (rideHeight tune)); reflexivity.
Qed.

(** ** Front and rear rows of the chat renderer *)

(** C10: in the chat renderer the value of the rear row is chosen by a
    test on the front field.  For a setting that is applicable and whose
    rear value is displayable: when the front value is the string "Stock"
    the rear row is rendered from the number 0, and when it is not, the
    rear row is rendered from the rear value. *)
Theorem rear_row_tests_front_field :
  forall (M : UnitsOfMeasure) (header : string)
         (value : FrontAndRearWithUnits) (precision : nat) (showAll : bool),
    wu_na value = false ->
    Discord.showValue (wu_rear value) = true ->
    (wu_front value = "Stock" ->
     Discord.formatFrontRearWithUnit header value precision showAll =
     Discord.formatTable header
       ((if showAll then [Spec.frontRowFrom (Num zero) value precision] else [])
        ++ [Spec.rearRowFrom (Num zero) value precision])%list
       Discord.TextAlign.right) /\
    (wu_front value <> "Stock" ->
     Discord.formatFrontRearWithUnit header value precision showAll =
     Discord.formatTable header
       ((if showAll || Discord.showValue (wu_front value)
         then [Spec.frontRowFrom (Str (wu_front value)) value precision]
         else [])
        ++ [Spec.rearRowFrom (Str (wu_rear value)) value precision])%list
       Discord.TextAlign.right).
Proof.
  intros M header value precision showAll Hna Hrear.
  unfold Discord.formatFrontRearWithUnit, Discord.frontRearWithUnitBody.
  rewrite Hna, Hrear, orb_true_r.
  unfold Spec.frontRowFrom, Spec.rearRowFrom.
  split.
  - intros ->. simpl. rewrite orb_false_r.
    destruct showAll; reflexivity.
  - intro Hne. apply String.eqb_neq in Hne. rewrite Hne.
    destruct (showAll || Discord.showValue (wu_front value)); reflexivity.
Qed.

Lemma rear_row_tests_front_field_witness :
  (wu_na Spec.stockFrontSprings = false /\
   Discord.showValue (wu_rear Spec.stockFrontSprings) = true) /\
  Discord.formatFrontRearWithUnit (M := SpecModel.unitsOfMeasure)
    "Springs" Spec.stockFrontSprings 1 false =
  [ "-- Springs --"; "R  0.0 kgf/mm / 0.0 lbs/in"; "" ].
Proof.
  split; [split; reflexivity|].
  destruct (rear_row_tests_front_field SpecModel.unitsOfMeasure "Springs"
              Spec.stockFrontSprings 1 false eq_refl eq_refl) as [Hstock _].
  rewrite (Hstock eq_refl). reflexivity.
Defined.

(** ** Numeric defaults in the two renderers *)

(** C5: in the chat renderer, when the brake and steering-wheel sections
    are applicable, the Balance line is there exactly when [bias] is not a
    sentinel and is not "50", the Pressure line exactly when [pressure] is
    not a sentinel and is not "100", the FFB Scale line exactly when
    [ffbScale] is not a sentinel and is not "100", and the Steering Lock
    line exactly when [steeringLockRange] is not a sentinel and is not
    "900".  In the markdown renderer a brake row is missing only when its
    field is a sentinel (it is missing only when both fields are empty), and
    the two steering-wheel rows are always there: no numeric default
    suppresses a row. *)
Theorem numeric_defaults_suppressed_in_chat_only :
  forall (U : Utils) (tune : TuneSettings),
    brake_na (brake tune) = false ->
    sw_na (steeringWheel tune) = false ->
    (Spec.hasLineStarting "Balance" (Discord.formatBrakes tune) <->
       ~ Spec.sentinel (bias (brake tune)) /\ bias (brake tune) <> "50") /\
    (Spec.hasLineStarting "Pressure" (Discord.formatBrakes tune) <->
       ~ Spec.sentinel (pressure (brake tune)) /\ pressure (brake tune) <> "100") /\
    (Spec.hasLineStarting "FFB Scale" (Discord.formatSteeringWheel tune) <->
       ~ Spec.sentinel (ffbScale (steeringWheel tune))
       /\ ffbScale (steeringWheel tune) <> "100") /\
    (Spec.hasLineStarting "Steering Lock" (Discord.formatSteeringWheel tune) <->
       ~ Spec.sentinel (steeringLockRange (steeringWheel tune))
       /\ steeringLockRange (steeringWheel tune) <> "900") /\
    (~ Spec.sentinel (bias (brake tune)) ->
       In ("|Balance|" ++ formatFloat (Str (bias (brake tune))) 0 "%" ++ "|")
          (Reddit.formatBrakes tune)) /\
    (~ Spec.sentinel (pressure (brake tune)) ->
       In ("|Pressure|" ++ formatFloat (Str (pressure (brake tune))) 0 "%" ++ "|")
          (Reddit.formatBrakes tune)) /\
    In ("|FFB Scale|" ++ ffbScale (steeringWheel tune) ++ "|")
       (Reddit.formatSteeringWheel tune) /\
    In ("|Steering Lock Range|" ++ steeringLockRange (steeringWheel tune) ++ "|")
       (Reddit.formatSteeringWheel tune).
Proof.
  intros U tune Hb Hs.
  pose proof (discord_optional_rows "Brakes"
                (Discord.showValue (bias (brake tune))
                 && negb (String.eqb (bias (brake tune)) "50"))
                (Discord.showValue (pressure (brake tune))
                 && negb (String.eqb (pressure (brake tune)) "100"))
                "B" "alanc" "e" [formatFloat (Str (bias (brake tune))) 0 "%"]
                "P" "ressur" "e" [formatFloat (Str (pressure (brake tune))) 0 "%"]
                eq_refl eq_refl eq_refl eq_refl eq_refl eq_refl eq_refl)
    as [B1 B2].
  pose proof (discord_optional_rows "Steering Wheel"
                (Discord.showValue (ffbScale (steeringWheel tune))
                 && negb (String.eqb (ffbScale (steeringWheel tune)) "100"))
                (Discord.showValue (steeringLockRange (steeringWheel tune))
                 && negb (String.eqb (steeringLockRange (steeringWheel tune)) "900"))
                "F" "FB Scal" "e" [ffbScale (steeringWheel tune)]
                "S" "teering Loc" "k" [steeringLockRange (steeringWheel tune)]
                eq_refl eq_refl eq_refl eq_refl eq_refl eq_refl eq_refl)
    as [S1 S2].
  cbn [append] in B1, B2, S1, S2.
  rewrite shown_and_not_default in B1, B2, S1, S2.
  unfold Discord.formatBrakes, Discord.formatSteeringWheel.
  rewrite Hb, Hs.
  repeat (split; [assumption|]).
  unfold Reddit.formatBrakes, Reddit.formatSteeringWheel. rewrite Hs.
  split; [|split; [|split]].
  - intro Hn. destruct (bias (brake tune)) as [|c b] eqn:E.
    + exfalso. apply Hn. left. reflexivity.
    + simpl. right; right; left. reflexivity.
  - intro Hn. destruct (pressure (brake tune)) as [|c b] eqn:E.
    + exfalso. apply Hn. left. reflexivity.
    + rewrite andb_false_r. simpl. right; right; right; left. reflexivity.
  - simpl. right; right; left. reflexivity.
  - simpl. right; right; right; left. reflexivity.
Qed.

Lemma numeric_defaults_suppressed_in_chat_only_witness :
  (brake_na (brake (Spec.sampleTune [])) = false /\
   sw_na (steeringWheel (Spec.sampleTune [])) = false) /\
  Spec.hasLineStarting "Balance"
    (Discord.formatBrakes (U := SpecModel.utils) (Spec.sampleTune [])) /\
  ~ Spec.hasLineStarting "Pressure"
    (Discord.formatBrakes (U := SpecModel.utils) (Spec.sampleTune [])) /\
  In "|Pressure|100%|"
    (Reddit.formatBrakes (U := SpecModel.utils) (Spec.sampleTune [])).
Proof.
  split; [split; reflexivity|].
  destruct (numeric_defaults_suppressed_in_chat_only
              SpecModel.utils (Spec.sampleTune []) eq_refl eq_refl)
    as [B [P [_ [_ [_ [RP _]]]]]].
  split; [|split].
  - apply B. split; [|discriminate].
    intros [H|[H|[H|H]]]; discriminate H.
  - intro H. apply P in H. destruct H as [_ H]. apply H. reflexivity.
  - apply RP. intros [H|[H|[H|H]]]; discriminate H.
Defined.

(** ** The differential section *)

(** In the scenario the chat renderer does not return the empty sequence. *)
Lemma chat_differential_not_suppressed :
  Discord.formatDifferential (U := SpecModel.utils) Spec.scenarioDiff "" <> [].
Proof.
  vm_compute. discriminate.
Qed.

(** C1, amended: for the differential setting with front accel and decel
    "50", an empty rear and center "50", the chat renderer leaves out the
    Center line only and still prints the heading, the column row and the
    front row; the markdown renderer prints the Front row (50% / 50%) and
    the Center row (50%). *)
Theorem differential_scenario_in_both_renderers :
  forall (U : Utils) (driveType : DriveType),
    formatFloat (Str "50") 0 "%" = "50%" ->
    Discord.formatDifferential Spec.scenarioDiff driveType =
      [ Discord.h1 "Differential"; "-  Accel Decel"; "F  50%   50%"; "" ] /\
    Reddit.formatDifferential Spec.scenarioDiff driveType =
      [ "|**Differential**|**Accel**|**Decel**|"; "|:--|--:|--:|";
        "|Front|50%|50%|"; "|Center|50%||"; Reddit.tableSeparator ].
Proof.
  intros U driveType H.
  unfold Discord.formatDifferential, Discord.formatDiffLine,
    Reddit.formatDifferential, Reddit.differentialBody.
  cbn [Spec.scenarioDiff diff_na diff_front diff_rear center accel decel].
  replace (Discord.showValue "50") with true by reflexivity.
  replace (Discord.showValue "") with false by reflexivity.
  replace (Reddit.showValue "50") with true by reflexivity.
  replace (Reddit.showValue "") with false by reflexivity.
  cbn [orb]. rewrite H. split; reflexivity.
Qed.

Lemma differential_scenario_in_both_renderers_witness :
  formatFloat (Utils := SpecModel.utils) (Str "50") 0 "%" = "50%" /\
  Discord.formatDifferential (U := SpecModel.utils) Spec.scenarioDiff "AWD" =
    [ Discord.h1 "Differential"; "-  Accel Decel"; "F  50%   50%"; "" ].
Proof.
  split; [reflexivity|].
  apply (differential_scenario_in_both_renderers SpecModel.utils "AWD" eq_refl).
Defined.

(** ** Gear ratios *)

Lemma takeWhile_ext {A : Type} (p q : A -> bool) (l : list A) :
  Forall (fun x => p x = q x) l -> Spec.takeWhile p l = Spec.takeWhile q l.
Proof.
  induction 1 as [|x l Hx _ IH]; simpl; [reflexivity|].
  rewrite Hx, IH. reflexivity.
Qed.

Lemma mapFrom_length {A B : Type} (f : A -> nat -> B) (l : list A) (i : nat) :
  List.length (mapFrom f i l) = List.length l.
Proof.
  revert i. induction l as [|x l IH]; intro i; simpl; [reflexivity|].
  now rewrite IH.
Qed.

Lemma discord_gearRows_takeWhile {U : Utils} (rest : list string) (index : nat) :
  Discord.gearRows index rest =
  mapFrom Spec.gearRow index (Spec.takeWhile Discord.showValue rest).
Proof.
  revert index. induction rest as [|r rest IH]; intro index; simpl;
    [reflexivity|].
  destruct (Discord.showValue r); simpl; [|reflexivity].
  now rewrite IH.
Qed.

Lemma reddit_gearRows_takeWhile {U : Utils} (rest : list string) (index : nat) :
  Reddit.gearRows index rest =
  mapFrom Spec.gearRow index
          (Spec.takeWhile (fun r => truthy (parseFloat r)) rest).
Proof.
  revert index. induction rest as [|r rest IH]; intro index; simpl;
    [reflexivity|].
  destruct (truthy (parseFloat r)); simpl; [|reflexivity].
  now rewrite IH.
Qed.


(** With "N/A" in the second slot both renderers stop there, although the
    first empty slot comes two entries later. *)
Lemma gears_stop_at_sentinel_not_at_first_empty :
  gears_na (gears (Spec.sampleTune ["3.50"; "N/A"; "2.10"; ""; ""])) = false /\
  nth_error (ratios (gears (Spec.sampleTune ["3.50"; "N/A"; "2.10"; ""; ""]))) 0
    = Some "3.50" /\
  Spec.ratiosBeforeFirstEmpty ["3.50"; "N/A"; "2.10"; ""; ""] = ["N/A"; "2.10"] /\
  Discord.formatGears (U := SpecModel.utils)
    (Spec.sampleTune ["3.50"; "N/A"; "2.10"; ""; ""])
    = [ Discord.h1 "Gearing"; "FR 3.50"; "" ] /\
  Reddit.formatGears (U := SpecModel.utils)
    (Spec.sampleTune ["3.50"; "N/A"; "2.10"; ""; ""])
    = [ "|**Gears**|**Ratio**|"; "|:--|--:|"; "|Final Drive|3.50|";
        Reddit.tableSeparator ].
Proof.
  repeat split; vm_compute; reflexivity.
Qed.

Lemma discord_table_length (body : list (list string)) (a : Discord.TextAlign.t) :
  body <> [] ->
  List.length (Discord.formatTable "" body a) = S (List.length body).
Proof.
  intro H. rewrite discord_table_rows by exact H.
  rewrite length_app, length_map. simpl. lia.
Qed.

Lemma reddit_table_length (header : list string) (body : list (list string))
  (b : bool) (a : Reddit.TextAlign.t) :
  List.length (Reddit.formatTable header body b a) = (3 + List.length body)%nat.
Proof.
  unfold Reddit.formatTable. simpl.
  rewrite length_app, length_map. simpl. lia.
Qed.

Lemma displayable_ratio (r : string) :
  r = "" \/ (~ Spec.sentinel r /\ truthy (parseFloat r) = true) ->
  Discord.showValue r = negb (String.eqb r "") /\
  truthy (parseFloat r) = negb (String.eqb r "").
Proof.
  intros [->|[Hs Ht]]; [split; reflexivity|].
  assert (E : String.eqb r "" = false).
  { apply String.eqb_neq. intros ->. apply Hs. left. reflexivity. }
  rewrite E, Ht. split; [|reflexivity].
  apply showValue_discord_iff, Hs.
Qed.

(** C3, amended: for a gears setting that is applicable and has a
    non-empty first ratio, both renderers print the final-drive row and
    then one row per following ratio in index order, the chat renderer up
    to the first ratio that is a sentinel and the markdown renderer up to
    the first ratio that [parseFloat] reads as [NaN] or zero; nothing at
    or after that slot is printed.  When every following ratio is empty or
    is a string that is no sentinel and parses to a number other than
    zero, both stop exactly at the first empty slot. *)
Theorem gears_rows_stop_at_first_undisplayable_ratio :
  forall (U : Utils) (tune : TuneSettings) (r0 : string),
    gears_na (gears tune) = false ->
    nth_error (ratios (gears tune)) 0 = Some r0 ->
    r0 <> "" ->
    Discord.formatGears tune =
      Discord.h1 "Gearing"
        :: Discord.formatTable ""
             (["FR"; toFixedStr (parseFloat r0) 2]
                :: mapFrom Spec.gearRow 1 (Spec.shownRatios (ratios (gears tune))))
             Discord.TextAlign.left /\
    Spec.chatDataRows (Discord.formatGears tune) =
      S (List.length (Spec.shownRatios (ratios (gears tune)))) /\
    Reddit.formatGears tune =
      Reddit.formatTable ["Gears"; "Ratio"]
        (["Final Drive"; toFixedStr (parseFloat r0) 2]
           :: mapFrom Spec.gearRow 1 (Spec.parsedRatios (ratios (gears tune))))
        false Reddit.TextAlign.right /\
    Spec.markdownDataRows (Reddit.formatGears tune) =
      S (List.length (Spec.parsedRatios (ratios (gears tune)))) /\
    (Forall (fun r => r = "" \/ (~ Spec.sentinel r /\ truthy (parseFloat r) = true))
            (skipn 1 (ratios (gears tune))) ->
     Spec.shownRatios (ratios (gears tune))
       = Spec.ratiosBeforeFirstEmpty (ratios (gears tune)) /\
     Spec.parsedRatios (ratios (gears tune))
       = Spec.ratiosBeforeFirstEmpty (ratios (gears tune))).
Proof.
  intros U tune r0 Hna H0 Hr0.
  assert (E0 : String.eqb r0 "" = false) by (apply String.eqb_neq, Hr0).
  assert (D : Discord.formatGears tune =
      Discord.h1 "Gearing"
        :: Discord.formatTable ""
             (["FR"; toFixedStr (parseFloat r0) 2]
                :: mapFrom Spec.gearRow 1 (Spec.shownRatios (ratios (gears tune))))
             Discord.TextAlign.left).
  { unfold Discord.formatGears, Discord.gearsBody, Discord.parseRatio.
    rewrite Hna, H0, E0, andb_false_r, discord_gearRows_takeWhile.
    reflexivity. }
  assert (R : Reddit.formatGears tune =
      Reddit.formatTable ["Gears"; "Ratio"]
        (["Final Drive"; toFixedStr (parseFloat r0) 2]
           :: mapFrom Spec.gearRow 1 (Spec.parsedRatios (ratios (gears tune))))
        false Reddit.TextAlign.right).
  { unfold Reddit.formatGears, Reddit.gearsBody, Reddit.parseRatio.
    rewrite Hna, H0, E0, andb_false_r, reddit_gearRows_takeWhile.
    reflexivity. }
  split; [exact D|]. split.
  { rewrite D. unfold Spec.chatDataRows. cbn [List.length].
    rewrite discord_table_length by discriminate.
    cbn [List.length]. rewrite mapFrom_length. lia. }
  split; [exact R|]. split.
  { rewrite R. unfold Spec.markdownDataRows.
    rewrite reddit_table_length. cbn [List.length].
    rewrite mapFrom_length. lia. }
  intro HF. unfold Spec.shownRatios, Spec.parsedRatios, Spec.ratiosBeforeFirstEmpty.
  split; apply takeWhile_ext; eapply Forall_impl; try exact HF;
    intros r Hr; apply displayable_ratio in Hr; tauto.
Qed.

Lemma gears_rows_stop_at_first_undisplayable_ratio_witness :
  (gears_na (gears (Spec.sampleTune Spec.scenarioRatios)) = false /\
   nth_error (ratios (gears (Spec.sampleTune Spec.scenarioRatios))) 0
     = Some "3.50" /\
   "3.50" <> "") /\
  Spec.chatDataRows
    (Discord.formatGears (U := SpecModel.utils)
       (Spec.sampleTune Spec.scenarioRatios)) = 3%nat /\
  Spec.markdownDataRows
    (Reddit.formatGears (U := SpecModel.utils)
       (Spec.sampleTune Spec.scenarioRatios)) = 3%nat.
Proof.
  split; [repeat split; discriminate|].
  destruct (gears_rows_stop_at_first_undisplayable_ratio
              SpecModel.utils (Spec.sampleTune Spec.scenarioRatios) "3.50"
              eq_refl eq_refl ltac:(discriminate))
    as [_ [C [_ [M _]]]].
  split; [rewrite C|rewrite M]; reflexivity.
Defined.

End Props.
